(** * Awn_Robot: the AI service API layer ([API_AI_Design.py])

    A shallow embedding of the three data carriers ([BoundingBox],
    [RobotPose], [AI_Service_Status]) and of the four mock service classes
    ([ASR_API], [TTS_API], [CV_API], [Navigation_API]), followed by the
    properties of the interface contract that hold, or fail, on them.

    Python features and how they are rendered here:
    - [int] is [Z]; [float] is a binary64 primitive float; [bytes] is a list
      of bytes; [str] is a string holding the UTF-8 encoding (a text with a
      lone surrogate has none and is outside the model); a [dict] with
      string keys is a [gmap string pyval] (equality of dicts ignores the
      insertion order, as Python's [==] does);
    - a method runs in the monad [M]: it reads and writes a [world] made of
      the receiver's attribute dictionary and of the lines sent to standard
      output, and either returns a value or raises an exception; standard
      output is taken to accept any text (UTF-8);
    - an f-string is the list of its literal and formatted parts; turning
      a caller's value into text can fail, and then nothing is printed. *)

From Stdlib Require Import ZArith String PrimFloat.
From Stdlib Require Import Strings.Byte Strings.Ascii.
From stdpp Require Import gmap strings list fin_maps.

Local Open Scope string_scope.

(** ** Custom data types (source lines 15-56) *)

(** [class BoundingBox]: the constructor stores its four arguments. *)
Record BoundingBox := mkBoundingBox {
  x_min : Z;
  y_min : Z;
  x_max : Z;
  y_max : Z
}.

(** [class RobotPose]: 2D position and orientation. *)
Record RobotPose := mkRobotPose {
  x : float;
  y : float;
  theta : float
}.

(** [class AI_Service_Status]; [error_message] defaults to [None]. *)
Record AI_Service_Status := mkStatus {
  service_name : string;
  is_ready : bool;
  error_message : option string
}.

(** ** NumPy arrays, as far as the source uses them *)

Inductive np_dtype := np_int8 | np_uint8.

Record ndarray := mkNdarray {
  dtype : np_dtype;
  shape : list nat;
  data : list Z
}.

(** The value of [np.array([[0]], dtype=np.int8)], the one array the
    source builds: one row of one cell. *)
Definition dummy_map : ndarray :=
  {| dtype := np_int8; shape := [1; 1]; data := [0%Z] |}.

(** ** Python values a caller can hand to the API *)

#[warnings="-register-all"]
Inductive pyval :=
| PyNone
| PyBool (b : bool)
| PyInt (z : Z)
| PyFloat (f : float)
| PyStr (s : string)
| PyBytes (bs : list byte)
| PyList (l : list pyval)
| PyTuple (l : list pyval)
| PyDict (d : gmap string pyval)
| PyNdarray (a : ndarray)
| PyBoundingBox (bb : BoundingBox)
| PyRobotPose (p : RobotPose)
| PyStatus (st : AI_Service_Status).

(** ** Exceptions, output and the method monad *)

Inductive exn := AttributeError | TypeError | ValueError | RecursionError.

(** The parts of an f-string: literal text, [{v}] and [{v:.2f}]. *)
Inductive fragment :=
| Lit (s : string)
| Fmt (v : pyval)
| Fmt2f (f : float).

Definition line := list fragment.

Record world := mkWorld {
  self_dict : gmap string pyval;   (* the receiver's [__dict__] *)
  stdout : list line               (* what [print] has written, oldest first *)
}.

(** None of the four service classes defines [__init__]: a new instance
    has no attribute. *)
Definition fresh : world := {| self_dict := ∅; stdout := [] |}.

Definition M (A : Type) : Type := world → (exn + A) * world.

#[global] Instance M_ret : MRet M := λ A a w, (inr a, w).

#[global] Instance M_bind : MBind M := λ A B k m w,
  match m w with
  | (inr a, w') => k a w'
  | (inl e, w') => (inl e, w')
  end.

(** Lift the result of evaluating an expression into a method body. *)
Definition eval {A : Type} (r : exn + A) : M A := λ w, (r, w).

Definition print (l : line) : M unit := λ w,
  (inr tt, {| self_dict := self_dict w; stdout := (stdout w ++ [l])%list |}).

(** What a call returned or raised, and the world it left. *)
Definition outcome {A : Type} (m : M A) (w : world) : exn + A := fst (m w).
Definition after {A : Type} (m : M A) (w : world) : world := snd (m w).

(** ** Built-ins used by the method bodies *)

(** A byte of the form [10xxxxxx] continues a UTF-8 sequence. *)
Definition is_continuation (c : ascii) : bool :=
  match c with
  | Ascii _ _ _ _ _ _ false true => true
  | _ => false
  end.

(** [len] of a [str]: its number of code points. *)
Fixpoint str_len (s : string) : nat :=
  match s with
  | EmptyString => 0
  | String c s' => (if is_continuation c then 0 else 1) + str_len s'
  end.

(** [len(v)]: [TypeError] on a value without a length. *)
Definition py_len (v : pyval) : exn + Z :=
  match v with
  | PyStr s => inr (Z.of_nat (str_len s))
  | PyBytes bs => inr (Z.of_nat (length bs))
  | PyList l | PyTuple l => inr (Z.of_nat (length l))
  | PyDict d => inr (Z.of_nat (size d))
  | PyNdarray a =>
      match shape a with
      | [] => inl TypeError
      | n :: _ => inr (Z.of_nat n)
      end
  | _ => inl TypeError
  end.

(** [v.shape]: only arrays have the attribute; its value is a tuple. *)
Definition attr_shape (v : pyval) : exn + pyval :=
  match v with
  | PyNdarray a => inr (PyTuple (map (λ n, PyInt (Z.of_nat n)) (shape a)))
  | _ => inl AttributeError
  end.

(** [v.x] and [v.y]: only a [RobotPose] has them. *)
Definition attr_x (v : pyval) : exn + float :=
  match v with
  | PyRobotPose p => inr (x p)
  | _ => inl AttributeError
  end.

Definition attr_y (v : pyval) : exn + float :=
  match v with
  | PyRobotPose p => inr (y p)
  | _ => inl AttributeError
  end.

(** ** Serialisation of the data carriers *)

Definition BoundingBox_to_dict (self : BoundingBox) : gmap string pyval :=
  {[ "x_min" := PyInt (x_min self); "y_min" := PyInt (y_min self);
     "x_max" := PyInt (x_max self); "y_max" := PyInt (y_max self) ]}.

Definition BoundingBox_str (self : BoundingBox) : line :=
  [ Lit "BoundingBox(x_min="; Fmt (PyInt (x_min self));
    Lit ", y_min="; Fmt (PyInt (y_min self));
    Lit ", x_max="; Fmt (PyInt (x_max self));
    Lit ", y_max="; Fmt (PyInt (y_max self)); Lit ")" ].

Definition RobotPose_to_dict (self : RobotPose) : gmap string pyval :=
  {[ "x" := PyFloat (x self); "y" := PyFloat (y self);
     "theta" := PyFloat (theta self) ]}.

Definition RobotPose_str (self : RobotPose) : line :=
  [ Lit "RobotPose(x="; Fmt2f (x self); Lit ", y="; Fmt2f (y self);
    Lit ", theta="; Fmt2f (theta self); Lit ")" ].

Definition py_optional_str (o : option string) : pyval :=
  match o with
  | Some s => PyStr s
  | None => PyNone
  end.

Definition AI_Service_Status_to_dict (self : AI_Service_Status)
  : gmap string pyval :=
  {[ "service_name" := PyStr (service_name self);
     "is_ready" := PyBool (is_ready self);
     "error_message" := py_optional_str (error_message self) ]}.

Definition AI_Service_Status_str (self : AI_Service_Status) : line :=
  let status :=
    if is_ready self then [ Lit "Ready" ]
    else [ Lit "Not Ready ("; Fmt (py_optional_str (error_message self));
           Lit ")" ] in
  ([ Lit "Service Status: "; Fmt (PyStr (service_name self)); Lit " is " ]
   ++ status)%list.

(** ** Turning a value into text

    [{v}] in an f-string takes [str(v)], which for a container is the
    [repr] of the container and of all it holds. Two things make it raise,
    before anything is printed:
    - an [int] of more than 4300 decimal digits: ValueError (the default
      limit of the interpreter on int-to-str conversion);
    - values nested deeper than the interpreter recurses: RecursionError.
      Every value entered costs one level, scalars included. [repr_depth]
      is the number of levels found with CPython 3.11 and its default
      recursion limit of 1000 inside a method called from the top level of
      a script; other interpreters and deeper callers have other depths, and
      no theorem below depends on the number.
    The entries of a dict are visited in key order here and in insertion
    order by the interpreter: the two agree on whether formatting fails,
    and may differ on which error is met first when entries fail
    differently. *)

Definition int_max_str_digits : Z := 4300.

Definition int_formats (z : Z) : bool :=
  (Z.abs z <? 10 ^ int_max_str_digits)%Z.

Definition repr_depth : N := 997.

(** The error met first, going left to right. *)
Definition first_error (o rest : option exn) : option exn :=
  match o with
  | Some e => Some e
  | None => rest
  end.

(** What [repr(v)] raises with [depth] levels left, if anything. An
    instance of a data class has the default [repr] of an object inside a
    container, which reads none of its fields. *)
Fixpoint repr_error (depth : N) (v : pyval) : option exn :=
  if (depth =? 0)%N then Some RecursionError
  else
    match v with
    | PyInt z => if int_formats z then None else Some ValueError
    | PyList l | PyTuple l =>
        foldr (λ item rest,
                 first_error (repr_error (N.pred depth) item) rest) None l
    | PyDict d =>
        map_fold (λ _ item rest,
                    first_error (repr_error (N.pred depth) item) rest) None d
    | _ => None
    end.

Definition fragment_error (f : fragment) : option exn :=
  match f with
  | Fmt v => repr_error repr_depth v
  | Lit _ | Fmt2f _ => None
  end.

(** What [str(v)] raises, if anything: a [BoundingBox] has a [__str__],
    which formats its four integers; the other two data classes format
    floats and strings only. *)
Definition str_error (v : pyval) : option exn :=
  match v with
  | PyBoundingBox bb =>
      foldr (λ f rest, first_error (fragment_error f) rest) None
        (BoundingBox_str bb)
  | _ => repr_error repr_depth v
  end.

(** [levels] lists, one inside the other, the innermost empty. *)
Fixpoint nested_list (levels : nat) : pyval :=
  match levels with
  | 0 | 1 => PyList []
  | S n => PyList [nested_list n]
  end.

(** [{v}]: the formatted part, or the exception of [str(v)]. *)
Definition formatted (v : pyval) : exn + fragment :=
  match str_error v with
  | Some e => inl e
  | None => inr (Fmt v)
  end.

(** Modelled from the spec: the deserializer of a BoundingBox, which the
    source does not contain. "Serializes to a mapping with the four named
    fields", so reading back takes the integer under each of the four names
    and hands them to the constructor; a mapping that lacks one of them, or
    holds a non-integer there, has no reading. *)
Definition BoundingBox_from_dict (d : gmap string pyval) : option BoundingBox :=
  match d !! "x_min", d !! "y_min", d !! "x_max", d !! "y_max" with
  | Some (PyInt a), Some (PyInt b), Some (PyInt c), Some (PyInt e) =>
      Some (mkBoundingBox a b c e)
  | _, _, _, _ => None
  end.

(** ** The service classes (source lines 64-172)

    Every method is a mock: it evaluates the f-string of its [print], prints
    it and returns a canned value. The receiver [self] is never read nor
    written. A length, a shape and a coordinate always format; [text] and
    [object_list] are the caller's values and go through [formatted]. Parameters with a default value take their default at the call
    site ([default_lang_code], [default_voice_id], [PyNone]). *)

Definition default_lang_code : pyval := PyStr "ar-SA".
Definition default_voice_id : pyval := PyStr "default_female".

Module ASR_API.

Definition recognize_speech (audio_data lang_code : pyval)
  : M (option string) :=
  n ← eval (py_len audio_data);
  _ ← print [ Lit "[ASR_API]: Method 'recognize_speech' called with dummy audio data (";
              Fmt (PyInt n); Lit " bytes)." ];
  mret (Some "Dummy Recognized Text").

Definition get_status : M AI_Service_Status :=
  _ ← print [ Lit "[ASR_API]: Method 'get_status' called." ];
  mret (mkStatus "ASR Service" true None).

End ASR_API.

Module TTS_API.

Definition dummy_audio_bytes : list byte :=
  Eval cbv in list_byte_of_string "dummy_audio_bytes".

Definition synthesize_speech (text lang_code voice_id : pyval)
  : M (option (list byte)) :=
  shown ← eval (formatted text);
  _ ← print [ Lit "[TTS_API]: Method 'synthesize_speech' called for text: '";
              shown; Lit "'." ];
  mret (Some dummy_audio_bytes).

Definition get_status : M AI_Service_Status :=
  _ ← print [ Lit "[TTS_API]: Method 'get_status' called." ];
  mret (mkStatus "TTS Service" true None).

End TTS_API.

Module CV_API.

Definition detect_faces (image_frame : pyval)
  : M (list (gmap string pyval)) :=
  shp ← eval (attr_shape image_frame);
  _ ← print [ Lit "[CV_API]: Method 'detect_faces' called with dummy image (shape: ";
              Fmt shp; Lit ")." ];
  mret [ {[ "bbox" := PyDict (BoundingBox_to_dict (mkBoundingBox 0 0 10 10));
            "confidence" := PyFloat 0%float;
            "id" := PyStr "dummy" ]} ].

Definition recognize_object (image_frame object_list : pyval)
  : M (list (gmap string pyval)) :=
  shp ← eval (attr_shape image_frame);
  looking_for ← eval (formatted object_list);
  _ ← print [ Lit "[CV_API]: Method 'recognize_object' called with dummy image (shape: ";
              Fmt shp; Lit ", looking for: "; looking_for; Lit ")." ];
  mret [].

Definition get_status : M AI_Service_Status :=
  _ ← print [ Lit "[CV_API]: Method 'get_status' called." ];
  mret (mkStatus "CV Service" true None).

End CV_API.

Module Navigation_API.

Definition get_current_pose : M RobotPose :=
  _ ← print [ Lit "[Navigation_API]: Method 'get_current_pose' called." ];
  mret (mkRobotPose 0%float 0%float 0%float).

Definition set_goal_pose (target_pose : pyval) : M bool :=
  tx ← eval (attr_x target_pose);
  ty ← eval (attr_y target_pose);
  _ ← print [ Lit "[Navigation_API]: Method 'set_goal_pose' called for dummy target X=";
              Fmt2f tx; Lit ", Y="; Fmt2f ty; Lit "." ];
  mret true.

Definition cancel_navigation : M bool :=
  _ ← print [ Lit "[Navigation_API]: Method 'cancel_navigation' called." ];
  mret true.

Definition get_map_data : M (option ndarray) :=
  _ ← print [ Lit "[Navigation_API]: Method 'get_map_data' called." ];
  mret (Some dummy_map).

Definition get_status : M AI_Service_Status :=
  _ ← print [ Lit "[Navigation_API]: Method 'get_status' called." ];
  mret (mkStatus "Navigation Service" true None).

End Navigation_API.

(** The four classes share [get_status] by name only; a caller holding any
    one of them calls the method of that class. *)
Inductive service := ASR | TTS | CV | Navigation.

Definition get_status (s : service) : M AI_Service_Status :=
  match s with
  | ASR => ASR_API.get_status
  | TTS => TTS_API.get_status
  | CV => CV_API.get_status
  | Navigation => Navigation_API.get_status
  end.

(** ** Vocabulary of the interface contract *)

(** The invariant required of a status: an error message is present only
    when the service is not ready. *)
Definition status_invariant (st : AI_Service_Status) : bool :=
  match error_message st with
  | Some _ => negb (is_ready st)
  | None => true
  end.

(** The states of a navigation goal named by the contract. The source
    declares no such type and [Navigation_API] stores nothing. *)
Inductive nav_state := IDLE | NAVIGATING | SUCCEEDED | CANCELLED | FAILED.

(** The goal lifecycle as the contract words it, for a way [state_of] of
    reading the navigation state off the service object: an accepted goal
    leaves the object in NAVIGATING, a cancel leaves it in CANCELLED, and
    from CANCELLED some goal is accepted and leads to NAVIGATING again. *)
Definition goal_lifecycle (state_of : gmap string pyval → nav_state) : Prop :=
  (∀ target w,
      outcome (Navigation_API.set_goal_pose target) w = inr true →
      state_of (self_dict (after (Navigation_API.set_goal_pose target) w))
      = NAVIGATING)
  ∧ (∀ w,
      state_of (self_dict (after Navigation_API.cancel_navigation w))
      = CANCELLED)
  ∧ (∀ w,
      state_of (self_dict w) = CANCELLED →
      ∃ target,
        outcome (Navigation_API.set_goal_pose target) w = inr true
        ∧ state_of (self_dict (after (Navigation_API.set_goal_pose target) w))
          = NAVIGATING).



(** An [object_list] of the announced type [Optional[List[str]]]. *)
Definition py_labels (object_list : option (list string)) : pyval :=
  match object_list with
  | Some labels => PyList (PyStr <$> labels)
  | None => PyNone
  end.

(** The target pose of the demonstration block, [RobotPose(1.0, 1.0, 0.0)]. *)
Definition dummy_target_pose : RobotPose := mkRobotPose 1%float 1%float 0%float.

(** ** A caller holding one instance of each service (source lines 186-189)

    The four instances are distinct objects, each with its own attribute
    dictionary, and they share the console. *)

Record process := mkProcess {
  asr_api_instance : gmap string pyval;
  tts_api_instance : gmap string pyval;
  cv_api_instance : gmap string pyval;
  nav_api_instance : gmap string pyval;
  console : list line
}.

Definition P (A : Type) : Type := process → (exn + A) * process.

#[global] Instance P_ret : MRet P := λ A a p, (inr a, p).

#[global] Instance P_bind : MBind P := λ A B k m p,
  match m p with
  | (inr a, p') => k a p'
  | (inl e, p') => (inl e, p')
  end.

Definition instance_dict (s : service) (p : process) : gmap string pyval :=
  match s with
  | ASR => asr_api_instance p
  | TTS => tts_api_instance p
  | CV => cv_api_instance p
  | Navigation => nav_api_instance p
  end.

(** The process once the method called on instance [s] has left world [w]. *)
Definition leave (s : service) (w : world) (p : process) : process :=
  match s with
  | ASR => mkProcess (self_dict w) (tts_api_instance p) (cv_api_instance p)
             (nav_api_instance p) (stdout w)
  | TTS => mkProcess (asr_api_instance p) (self_dict w) (cv_api_instance p)
             (nav_api_instance p) (stdout w)
  | CV => mkProcess (asr_api_instance p) (tts_api_instance p) (self_dict w)
            (nav_api_instance p) (stdout w)
  | Navigation => mkProcess (asr_api_instance p) (tts_api_instance p)
                    (cv_api_instance p) (self_dict w) (stdout w)
  end.

(** [instance.method(...)]: the method runs with the instance as [self]. *)
Definition call {A : Type} (s : service) (m : M A) : P A := λ p,
  let '(r, w) := m {| self_dict := instance_dict s p; stdout := console p |} in
  (r, leave s w p).

(** The calls the API offers, with their arguments. *)
Inductive api_call :=
| Recognize_speech (audio_data lang_code : pyval)
| Synthesize_speech (text lang_code voice_id : pyval)
| Detect_faces (image_frame : pyval)
| Recognize_object (image_frame object_list : pyval)
| Get_current_pose
| Set_goal_pose (target_pose : pyval)
| Cancel_navigation
| Get_map_data
| Get_status (s : service).

Definition py_optional_bytes (o : option (list byte)) : pyval :=
  match o with
  | Some bs => PyBytes bs
  | None => PyNone
  end.

Definition py_optional_ndarray (o : option ndarray) : pyval :=
  match o with
  | Some a => PyNdarray a
  | None => PyNone
  end.

(** One call on the instance of its class; the returned object as a value. *)
Definition perform (c : api_call) : P pyval :=
  match c with
  | Recognize_speech audio_data lang_code =>
      r ← call ASR (ASR_API.recognize_speech audio_data lang_code);
      mret (py_optional_str r)
  | Synthesize_speech text lang_code voice_id =>
      r ← call TTS (TTS_API.synthesize_speech text lang_code voice_id);
      mret (py_optional_bytes r)
  | Detect_faces image_frame =>
      r ← call CV (CV_API.detect_faces image_frame);
      mret (PyList (PyDict <$> r))
  | Recognize_object image_frame object_list =>
      r ← call CV (CV_API.recognize_object image_frame object_list);
      mret (PyList (PyDict <$> r))
  | Get_current_pose =>
      r ← call Navigation Navigation_API.get_current_pose;
      mret (PyRobotPose r)
  | Set_goal_pose target_pose =>
      r ← call Navigation (Navigation_API.set_goal_pose target_pose);
      mret (PyBool r)
  | Cancel_navigation =>
      r ← call Navigation Navigation_API.cancel_navigation;
      mret (PyBool r)
  | Get_map_data =>
      r ← call Navigation Navigation_API.get_map_data;
      mret (py_optional_ndarray r)
  | Get_status s =>
      r ← call s (get_status s);
      mret (PyStatus r)
  end.

(** A caller's straight-line sequence of calls: an exception that no one
    catches ends it. *)
Fixpoint perform_all (cs : list api_call) : P (list pyval) :=
  match cs with
  | [] => mret []
  | c :: cs' =>
      v ← perform c;
      vs ← perform_all cs';
      mret (v :: vs)
  end.

(** The arguments on which a call finds what its body reads: a length on
    the audio, a shape on the frame, coordinates on the target, and a text
    for the values it prints. *)
Definition has_len (v : pyval) : bool :=
  match py_len v with
  | inr _ => true
  | inl _ => false
  end.

Definition is_ndarray (v : pyval) : bool :=
  match v with
  | PyNdarray _ => true
  | _ => false
  end.

Definition is_pose (v : pyval) : bool :=
  match v with
  | PyRobotPose _ => true
  | _ => false
  end.

Definition formats (v : pyval) : bool :=
  match str_error v with
  | None => true
  | Some _ => false
  end.

Definition accepted (c : api_call) : bool :=
  match c with
  | Recognize_speech audio_data _ => has_len audio_data
  | Synthesize_speech text _ _ => formats text
  | Detect_faces image_frame => is_ndarray image_frame
  | Recognize_object image_frame object_list =>
      is_ndarray image_frame && formats object_list
  | Set_goal_pose target_pose => is_pose target_pose
  | _ => true
  end.


Definition is_str (v : pyval) : bool :=
  match v with
  | PyStr _ => true
  | _ => false
  end.

Definition is_labels (v : pyval) : bool :=
  match v with
  | PyNone => true
  | PyList l => forallb is_str l
  | _ => false
  end.



(** The process after [ls] more lines went to the console. *)
Definition logged (ls : list line) (p : process) : process :=
  mkProcess (asr_api_instance p) (tts_api_instance p) (cv_api_instance p)
    (nav_api_instance p) (console p ++ ls)%list.

(** ** Framing: what a method leaves untouched *)

(** A computation that never writes the receiver's attributes. *)
Definition preserves_self {A : Type} (m : M A) : Prop :=
  ∀ w, self_dict (after m w) = self_dict w.

Create HintDb frame discriminated.

Lemma preserves_self_ret {A : Type} (a : A) : preserves_self (mret a).
Proof. intros w. reflexivity. Qed.

Lemma preserves_self_eval {A : Type} (r : exn + A) : preserves_self (eval r).
Proof. intros w. reflexivity. Qed.

Lemma preserves_self_print (l : line) : preserves_self (print l).
Proof. intros w. reflexivity. Qed.

Lemma preserves_self_bind {A B : Type} (m : M A) (k : A → M B) :
  preserves_self m → (∀ a, preserves_self (k a)) → preserves_self (m ≫= k).
Proof.
  intros Hm Hk w. specialize (Hm w).
  unfold after, mbind, M_bind in *.
  destruct (m w) as [[e | a] w1]; simpl in *.
  - exact Hm.
  - rewrite <- Hm. apply Hk.
Qed.

#[export] Hint Resolve preserves_self_ret preserves_self_eval
  preserves_self_print preserves_self_bind : frame.

Ltac frame_method :=
  repeat (apply preserves_self_bind; [ | intro ]); auto with frame.

Lemma recognize_speech_frame (audio_data lang_code : pyval) :
  preserves_self (ASR_API.recognize_speech audio_data lang_code).
Proof. unfold ASR_API.recognize_speech. frame_method. Qed.

Lemma synthesize_speech_frame (text lang_code voice_id : pyval) :
  preserves_self (TTS_API.synthesize_speech text lang_code voice_id).
Proof. unfold TTS_API.synthesize_speech. frame_method. Qed.

Lemma detect_faces_frame (image_frame : pyval) :
  preserves_self (CV_API.detect_faces image_frame).
Proof. unfold CV_API.detect_faces. frame_method. Qed.

Lemma recognize_object_frame (image_frame object_list : pyval) :
  preserves_self (CV_API.recognize_object image_frame object_list).
Proof. unfold CV_API.recognize_object. frame_method. Qed.

Lemma set_goal_pose_frame (target_pose : pyval) :
  preserves_self (Navigation_API.set_goal_pose target_pose).
Proof. unfold Navigation_API.set_goal_pose. frame_method. Qed.

Lemma cancel_navigation_frame : preserves_self Navigation_API.cancel_navigation.
Proof. unfold Navigation_API.cancel_navigation. frame_method. Qed.

Lemma get_map_data_frame : preserves_self Navigation_API.get_map_data.
Proof. unfold Navigation_API.get_map_data. frame_method. Qed.

Lemma get_current_pose_frame : preserves_self Navigation_API.get_current_pose.
Proof. unfold Navigation_API.get_current_pose. frame_method. Qed.

Lemma get_status_frame (s : service) : preserves_self (get_status s).
Proof.
  destruct s; unfold get_status, ASR_API.get_status, TTS_API.get_status,
    CV_API.get_status, Navigation_API.get_status; frame_method.
Qed.

(** ** What the calls return *)

(** A goal given as a [RobotPose] is accepted whatever the pose and the
    world; the call prints one line. *)
Lemma set_goal_pose_accepts (p : RobotPose) (w : world) :
  Navigation_API.set_goal_pose (PyRobotPose p) w
  = (inr true,
     {| self_dict := self_dict w;
        stdout := (stdout w ++
          [[ Lit "[Navigation_API]: Method 'set_goal_pose' called for dummy target X=";
             Fmt2f (x p); Lit ", Y="; Fmt2f (y p); Lit "." ]])%list |}).
Proof. reflexivity. Qed.

(** An argument without [x] is refused with [AttributeError] before
    anything is printed. *)
Lemma set_goal_pose_not_a_pose (w : world) :
  Navigation_API.set_goal_pose PyNone w = (inl AttributeError, w).
Proof. reflexivity. Qed.

Lemma detect_faces_not_an_array (w : world) :
  CV_API.detect_faces PyNone w = (inl AttributeError, w).
Proof. reflexivity. Qed.

Lemma recognize_speech_no_len (w : world) :
  ASR_API.recognize_speech PyNone default_lang_code w = (inl TypeError, w).
Proof. reflexivity. Qed.

(** [len] counts code points, not bytes: the text of the demonstration
    block has 16 characters in 29 bytes. *)
Example str_len_dummy_text :
  py_len (PyStr "مرحباً يا روبوت!") = inr 16%Z
  ∧ String.length "مرحباً يا روبوت!" = 29.
Proof. split; reflexivity. Qed.

(** A status that is not ready prints its message. *)
Example status_str_not_ready :
  AI_Service_Status_str (mkStatus "CV Service" false (Some "no camera"))
  = [ Lit "Service Status: "; Fmt (PyStr "CV Service"); Lit " is ";
      Lit "Not Ready ("; Fmt (PyStr "no camera"); Lit ")" ].
Proof. reflexivity. Qed.

(** The status of each service, whatever the world. *)
Lemma get_status_outcome (s : service) (w : world) :
  outcome (get_status s) w
  = inr (mkStatus
           match s with
           | ASR => "ASR Service"
           | TTS => "TTS Service"
           | CV => "CV Service"
           | Navigation => "Navigation Service"
           end true None).
Proof. destruct s; reflexivity. Qed.

(** The constructor itself accepts a ready status that carries a message:
    the invariant is kept by the callers, not by the class. *)
Lemma status_invariant_not_enforced :
  status_invariant (mkStatus "ASR Service" true (Some "boom")) = false.
Proof. reflexivity. Qed.

(** Reading back a serialised box gives the box, for every box. *)
Lemma BoundingBox_from_to_dict (b : BoundingBox) :
  BoundingBox_from_dict (BoundingBox_to_dict b) = Some b.
Proof. destruct b as [a b c e]. reflexivity. Qed.

Lemma BoundingBox_to_dict_lookup (b : BoundingBox) :
  BoundingBox_to_dict b !! "x_min" = Some (PyInt (x_min b))
  ∧ BoundingBox_to_dict b !! "y_min" = Some (PyInt (y_min b))
  ∧ BoundingBox_to_dict b !! "x_max" = Some (PyInt (x_max b))
  ∧ BoundingBox_to_dict b !! "y_max" = Some (PyInt (y_max b))
  ∧ dom (BoundingBox_to_dict b) = {[ "x_min"; "y_min"; "x_max"; "y_max" ]}.
Proof.
  unfold BoundingBox_to_dict. repeat split; by simplify_map_eq.
Qed.

(** ** Speech recognition and synthesis *)

(** C1, as stated, fails: on the empty byte string with language "ar-SA",
    [recognize_speech] called on a new instance does not return [None]. *)
Lemma recognize_speech_empty_not_none :
  outcome (ASR_API.recognize_speech (PyBytes []) (PyStr "ar-SA")) fresh
  ≠ inr None.
Proof. unfold outcome. simpl. discriminate. Qed.

(** C1, amended: on the empty byte string with language "ar-SA",
    [recognize_speech] raises nothing and returns the present text
    "Dummy Recognized Text", after printing that it received 0 bytes; the
    service object is unchanged. *)
Theorem recognize_speech_empty_dummy_text (w : world) :
  ASR_API.recognize_speech (PyBytes []) (PyStr "ar-SA") w
  = (inr (Some "Dummy Recognized Text"),
     {| self_dict := self_dict w;
        stdout := (stdout w ++
          [[ Lit "[ASR_API]: Method 'recognize_speech' called with dummy audio data (";
             Fmt (PyInt 0); Lit " bytes)." ]])%list |}).
Proof. reflexivity. Qed.

(** What [synthesize_speech] does, by whether its text formats. *)
Lemma synthesize_speech_unfold (text lang_code voice_id : pyval) (w : world) :
  TTS_API.synthesize_speech text lang_code voice_id w
  = match str_error text with
    | Some e => (inl e, w)
    | None =>
        (inr (Some TTS_API.dummy_audio_bytes),
         {| self_dict := self_dict w;
            stdout := (stdout w ++
              [[ Lit "[TTS_API]: Method 'synthesize_speech' called for text: '";
                 Fmt text; Lit "'." ]])%list |})
    end.
Proof.
  unfold TTS_API.synthesize_speech, formatted, mbind, M_bind, eval.
  destruct (str_error text); reflexivity.
Qed.

(** A [str] always formats, and so does a list of [str] or no list. *)
Lemma str_formats (s : string) : str_error (PyStr s) = None.
Proof. reflexivity. Qed.

Lemma is_labels_formats (v : pyval) :
  is_labels v = true → str_error v = None.
Proof.
  destruct v as [| | | | | | l | | | | | |]; try discriminate; [ reflexivity | ].
  simpl. induction l as [| item l IH]; [ reflexivity | ].
  simpl. destruct item; try discriminate. exact IH.
Qed.

Lemma py_labels_typed (object_list : option (list string)) :
  is_labels (py_labels object_list) = true.
Proof.
  destruct object_list as [labels |]; [ | reflexivity ].
  simpl. induction labels as [| s labels IH]; [ reflexivity | exact IH ].
Qed.

(** An [int] of more than 4300 digits does not format, alone or in a
    list. *)
Lemma huge_int_str_error (z : Z) :
  int_formats z = false →
  str_error (PyInt z) = Some ValueError
  ∧ str_error (PyList [PyInt z]) = Some ValueError.
Proof. intros Hz. unfold str_error. simpl. by rewrite Hz. Qed.

Lemma int_formats_limit : int_formats (10 ^ int_max_str_digits) = false.
Proof.
  unfold int_formats. rewrite Z.abs_eq by (apply Z.pow_nonneg; lia).
  apply Z.ltb_irrefl.
Qed.

(** Lists nested one level deeper than the depth left do not format. *)
Lemma deep_list_repr_error (n : nat) :
  repr_error (N.of_nat n) (nested_list (S n)) = Some RecursionError.
Proof.
  induction n as [| n IH]; [ reflexivity | ].
  change (nested_list (S (S n))) with (PyList [nested_list (S n)]).
  rewrite Nat2N.inj_succ. cbn [repr_error].
  destruct (N.succ (N.of_nat n) =? 0)%N eqn:Hz; [ reflexivity | ].
  cbn [foldr]. rewrite N.pred_succ, IH. reflexivity.
Qed.

(** The smallest unformattable integer, [10 ** 4300], as text or among the
    labels, stops the call with ValueError before it prints. *)
Example synthesize_speech_huge_int (w : world) :
  TTS_API.synthesize_speech (PyInt (10 ^ int_max_str_digits))
    default_lang_code default_voice_id w
  = (inl ValueError, w).
Proof.
  rewrite synthesize_speech_unfold.
  by rewrite (proj1 (huge_int_str_error _ int_formats_limit)).
Qed.

(** A text of 998 nested lists stops the call with RecursionError. *)
Example synthesize_speech_deep_text (w : world) :
  TTS_API.synthesize_speech (nested_list 998) default_lang_code
    default_voice_id w
  = (inl RecursionError, w).
Proof.
  rewrite synthesize_speech_unfold.
  change (str_error (nested_list 998))
    with (repr_error (N.of_nat 997) (nested_list 998)).
  by rewrite deep_list_repr_error.
Qed.



(** ** Vision *)

(** C4: for every image array, [recognize_object(frame, ["cup"])] raises
    nothing and returns the empty sequence. *)
Theorem recognize_object_cup_empty (frame : ndarray) (w : world) :
  outcome (CV_API.recognize_object (PyNdarray frame) (PyList [PyStr "cup"])) w
  = inr [].
Proof. reflexivity. Qed.

(** What [recognize_object] does on an array, by whether the label list
    formats. *)
Lemma recognize_object_unfold (frame : ndarray) (object_list : pyval)
  (w : world) :
  CV_API.recognize_object (PyNdarray frame) object_list w
  = match str_error object_list with
    | Some e => (inl e, w)
    | None =>
        (inr [],
         {| self_dict := self_dict w;
            stdout := (stdout w ++
              [[ Lit "[CV_API]: Method 'recognize_object' called with dummy image (shape: ";
                 Fmt (PyTuple (map (λ n, PyInt (Z.of_nat n)) (shape frame)));
                 Lit ", looking for: "; Fmt object_list; Lit ")." ]])%list |})
    end.
Proof.
  unfold CV_API.recognize_object, formatted, mbind, M_bind, eval. simpl.
  destruct (str_error object_list); reflexivity.
Qed.

(** An unformattable label stops the call before it prints. *)
Example recognize_object_huge_label (frame : ndarray) (w : world) :
  CV_API.recognize_object (PyNdarray frame)
    (PyList [PyInt (10 ^ int_max_str_digits)]) w
  = (inl ValueError, w).
Proof.
  rewrite recognize_object_unfold.
  by rewrite (proj2 (huge_int_str_error _ int_formats_limit)).
Qed.

(** C5: for every image array, [detect_faces] returns a sequence and does
    not raise, and so does [recognize_object] for every label list of its
    announced type, a list of strings of any length or no list. *)
Theorem vision_returns_sequence (frame : ndarray)
  (object_list : option (list string)) (w : world) :
  (∃ faces, outcome (CV_API.detect_faces (PyNdarray frame)) w = inr faces)
  ∧ (∃ objects,
        outcome (CV_API.recognize_object (PyNdarray frame)
                   (py_labels object_list)) w
        = inr objects).
Proof.
  split; [ eexists; reflexivity | ].
  exists []. unfold outcome. rewrite recognize_object_unfold.
  by rewrite (is_labels_formats _ (py_labels_typed object_list)).
Qed.

(** C10: for every image array [detect_faces] returns exactly one
    detection, with bounding box (0, 0, 10, 10), confidence 0.0 and id
    "dummy", hence never the empty sequence; and [get_map_data] always
    returns a present 1x1 int8 grid holding 0. *)
Theorem detect_faces_and_map_are_canned (frame : ndarray) (w : world) :
  (∃ det,
      outcome (CV_API.detect_faces (PyNdarray frame)) w = inr [det]
      ∧ det !! "bbox" = Some (PyDict (BoundingBox_to_dict (mkBoundingBox 0 0 10 10)))
      ∧ (∃ d, det !! "bbox" = Some (PyDict d)
              ∧ BoundingBox_from_dict d = Some (mkBoundingBox 0 0 10 10))
      ∧ det !! "confidence" = Some (PyFloat 0%float)
      ∧ det !! "id" = Some (PyStr "dummy")
      ∧ dom det = {[ "bbox"; "confidence"; "id" ]})
  ∧ outcome (CV_API.detect_faces (PyNdarray frame)) w ≠ inr []
  ∧ (∃ grid,
        outcome Navigation_API.get_map_data w = inr (Some grid)
        ∧ dtype grid = np_int8
        ∧ shape grid = [1; 1]
        ∧ data grid = [0%Z])
  ∧ outcome Navigation_API.get_map_data w ≠ inr None.
Proof.
  split.
  { eexists. split; [ reflexivity | ].
    split; [ reflexivity | ].
    split; [ eexists; split; reflexivity | ].
    split; [ reflexivity | ].
    split; [ reflexivity | ].
    rewrite !dom_insert_L, dom_singleton_L. set_solver. }
  split; [ unfold outcome; simpl; discriminate | ].
  split; [ eexists; repeat split | ].
  unfold outcome. simpl. discriminate.
Qed.

(** ** Navigation *)

(** C2, as stated, fails: no reading of a navigation state off the service
    object follows the lifecycle. On a new instance, accepting the goal
    [RobotPose(1.0, 1.0, 0.0)] and cancelling both leave the object with no
    attribute, so the same object would have to be read both as NAVIGATING
    and as CANCELLED. *)
Lemma goal_lifecycle_has_no_state :
  ¬ ∃ state_of, goal_lifecycle state_of.
Proof.
  intros [state_of (Hgoal & Hcancel & _)].
  specialize (Hgoal (PyRobotPose dummy_target_pose) fresh eq_refl).
  specialize (Hcancel fresh).
  rewrite set_goal_pose_frame in Hgoal.
  rewrite cancel_navigation_frame in Hcancel.
  congruence.
Qed.

(** C2, amended: [Navigation_API] keeps no navigation state. For every
    [RobotPose] target [set_goal_pose] returns true, [cancel_navigation]
    returns true, and a [set_goal_pose] after the cancel returns true again;
    each call only prints and leaves the service object unchanged, and
    [get_status] reports the same ready status before and after them. *)
Theorem navigation_calls_succeed_statelessly (p : RobotPose) (w : world) :
  let w1 := after (Navigation_API.set_goal_pose (PyRobotPose p)) w in
  let w2 := after Navigation_API.cancel_navigation w1 in
  let w3 := after (Navigation_API.set_goal_pose (PyRobotPose p)) w2 in
  outcome (Navigation_API.set_goal_pose (PyRobotPose p)) w = inr true
  ∧ outcome Navigation_API.cancel_navigation w1 = inr true
  ∧ outcome (Navigation_API.set_goal_pose (PyRobotPose p)) w2 = inr true
  ∧ self_dict w1 = self_dict w
  ∧ self_dict w2 = self_dict w
  ∧ self_dict w3 = self_dict w
  ∧ outcome Navigation_API.get_status w
    = inr (mkStatus "Navigation Service" true None)
  ∧ outcome Navigation_API.get_status w1
    = inr (mkStatus "Navigation Service" true None)
  ∧ outcome Navigation_API.get_status w2
    = outcome Navigation_API.get_status w1
  ∧ outcome Navigation_API.get_status w3
    = outcome Navigation_API.get_status w1.
Proof. repeat split. Qed.

(** C9: [cancel_navigation] returns true in every world, in particular on a
    service that was never given a goal; it prints one line and leaves the
    service object as it was. *)
Theorem cancel_navigation_always_true (w : world) :
  Navigation_API.cancel_navigation w
  = (inr true,
     {| self_dict := self_dict w;
        stdout := (stdout w ++
          [[ Lit "[Navigation_API]: Method 'cancel_navigation' called." ]])%list |}).
Proof. reflexivity. Qed.

(** ** Service status *)

(** C7: for every service, two successive calls of [get_status] both
    return a status, and the two agree on [service_name], [is_ready] and
    [error_message]; the first call does not change the service object. *)
Theorem get_status_twice_equal (s : service) (w : world) :
  ∃ st1 st2,
    outcome (get_status s) w = inr st1
    ∧ outcome (get_status s) (after (get_status s) w) = inr st2
    ∧ service_name st1 = service_name st2
    ∧ is_ready st1 = is_ready st2
    ∧ error_message st1 = error_message st2
    ∧ self_dict (after (get_status s) w) = self_dict w.
Proof.
  do 2 eexists.
  split; [ apply get_status_outcome | ].
  split; [ apply get_status_outcome | ].
  repeat split. apply get_status_frame.
Qed.

(** C8: every status returned by a [get_status] of the four services
    satisfies the invariant: an error message is present only if the
    service is not ready. *)
Theorem get_status_keeps_invariant (s : service) (w : world) :
  ∃ st, outcome (get_status s) w = inr st ∧ status_invariant st = true.
Proof.
  eexists. split; [ apply get_status_outcome | ]. reflexivity.
Qed.

(** ** Serialisation round trip *)

(** C6: for every box with [x_min ≤ x_max] and [y_min ≤ y_max], writing it
    to its four-field mapping and reading the mapping back yields a box
    with the same four fields. *)
Theorem BoundingBox_round_trip (b : BoundingBox) :
  (x_min b ≤ x_max b)%Z →
  (y_min b ≤ y_max b)%Z →
  ∃ b', BoundingBox_from_dict (BoundingBox_to_dict b) = Some b'
        ∧ x_min b' = x_min b ∧ y_min b' = y_min b
        ∧ x_max b' = x_max b ∧ y_max b' = y_max b.
Proof.
  intros _ _. exists b. rewrite BoundingBox_from_to_dict. repeat split.
Qed.

Lemma BoundingBox_round_trip_witness :
  (x_min (mkBoundingBox 0 0 10 10) ≤ x_max (mkBoundingBox 0 0 10 10))%Z
  ∧ (y_min (mkBoundingBox 0 0 10 10) ≤ y_max (mkBoundingBox 0 0 10 10))%Z
  ∧ ∃ b', BoundingBox_from_dict (BoundingBox_to_dict (mkBoundingBox 0 0 10 10))
          = Some b'
          ∧ x_min b' = 0%Z ∧ y_min b' = 0%Z ∧ x_max b' = 10%Z ∧ y_max b' = 10%Z.
Proof.
  split; [ simpl; lia | ].
  split; [ simpl; lia | ].
  apply (BoundingBox_round_trip (mkBoundingBox 0 0 10 10)); simpl; lia.
Defined.

(** ** Calls and sequences of calls seen from the caller *)

Lemma logged_nil (p : process) : logged [] p = p.
Proof. destruct p. unfold logged. simpl. by rewrite app_nil_r. Qed.

Lemma logged_logged (ls1 ls2 : list line) (p : process) :
  logged ls2 (logged ls1 p) = logged (ls1 ++ ls2) p.
Proof. unfold logged. simpl. by rewrite app_assoc. Qed.

Ltac call_raises :=
  do 2 eexists; split;
  [ let q := fresh "q" in intros q; rewrite logged_nil; destruct q; reflexivity
  | simpl; split; [ eexists; reflexivity | reflexivity ] ].

Ltac call_returns :=
  do 2 eexists; split;
  [ intros ?; reflexivity
  | simpl; split; [ eexists; reflexivity | reflexivity ] ].

(** A call answers and prints as its arguments alone decide: it returns
    after one line when its arguments are accepted, and raises before
    printing when they are not. *)
Lemma perform_uniform (c : api_call) :
  ∃ r ls,
    (∀ p, perform c p = (r, logged ls p))
    ∧ (if accepted c
       then (∃ v, r = inr v) ∧ length ls = 1
       else (∃ e, r = inl e) ∧ ls = []).
Proof.
  destruct c as [audio ? | text ? ? | frame | frame objs | | target | | | s].
  - destruct audio as [| | | | | | | | | a | | |];
      try (destruct a as [dt [| n sh] dat]); first [ call_returns | call_raises ].
  - destruct (str_error text) as [e |] eqn:Hfmt.
    + exists (inl e), []. split.
      * intros q. rewrite logged_nil. unfold perform, call, mbind, P_bind.
        rewrite synthesize_speech_unfold, Hfmt. by destruct q.
      * unfold accepted, formats. rewrite Hfmt. split; [ by exists e | done ].
    + do 2 eexists. split.
      * intros q. unfold perform, call, mbind, P_bind.
        rewrite synthesize_speech_unfold, Hfmt. reflexivity.
      * unfold accepted, formats. rewrite Hfmt.
        split; [ eexists; reflexivity | reflexivity ].
  - destruct frame; first [ call_returns | call_raises ].
  - destruct frame as [| | | | | | | | | a | | |]; try call_raises.
    destruct (str_error objs) as [e |] eqn:Hfmt.
    + exists (inl e), []. split.
      * intros q. rewrite logged_nil. unfold perform, call, mbind, P_bind.
        rewrite recognize_object_unfold, Hfmt. by destruct q.
      * unfold accepted, formats. rewrite Hfmt. split; [ by exists e | done ].
    + do 2 eexists. split.
      * intros q. unfold perform, call, mbind, P_bind.
        rewrite recognize_object_unfold, Hfmt. reflexivity.
      * unfold accepted, formats. rewrite Hfmt.
        split; [ eexists; reflexivity | reflexivity ].
  - call_returns.
  - destruct target; first [ call_returns | call_raises ].
  - call_returns.
  - call_returns.
  - destruct s; call_returns.
Qed.

(** A sequence of calls answers and prints as the calls alone decide: it
    completes with one answer and one line per call when every call is
    accepted, and otherwise stops at the first call that is not. *)
Lemma perform_all_uniform (cs : list api_call) :
  ∃ r ls,
    (∀ p, perform_all cs p = (r, logged ls p))
    ∧ (if forallb accepted cs
       then (∃ vs, r = inr vs ∧ length vs = length cs)
            ∧ length ls = length cs
       else (∃ e, r = inl e) ∧ length ls < length cs).
Proof.
  induction cs as [| c cs IH].
  - exists (inr []), []. split.
    + intros p. by rewrite logged_nil.
    + simpl. split; [ by exists [] | done ].
  - destruct (perform_uniform c) as (r & l1 & Hc & Hacc).
    destruct IH as (rs & l2 & Hcs & Hall).
    simpl forallb. destruct (accepted c); simpl.
    + destruct Hacc as [[v ->] Hl1].
      destruct (forallb accepted cs).
      * destruct Hall as [(vs & -> & Hvs) Hl2].
        exists (inr (v :: vs)), (l1 ++ l2)%list. split.
        -- intros p. unfold mbind, P_bind.
           rewrite Hc, Hcs, logged_logged. reflexivity.
        -- split; [ exists (v :: vs); simpl; by rewrite Hvs | ].
           rewrite length_app, Hl1, Hl2. reflexivity.
      * destruct Hall as [[e ->] Hl2].
        exists (inl e), (l1 ++ l2)%list. split.
        -- intros p. unfold mbind, P_bind.
           rewrite Hc, Hcs, logged_logged. reflexivity.
        -- split; [ by exists e | ].
           rewrite length_app, Hl1. simpl. lia.
    + destruct Hacc as [[e ->] ->].
      exists (inl e), []. split.
      * intros p. unfold mbind, P_bind. by rewrite Hc.
      * split; [ by exists e | simpl; lia ].
Qed.

Lemma has_len_false (v : pyval) :
  has_len v = false → py_len v = inl TypeError.
Proof.
  unfold has_len.
  destruct v as [| | | | | | | | | a | | |]; simpl; try done.
  destruct (shape a); done.
Qed.

(** ** Serialisers lose nothing *)

(** X1: two boxes have the same [to_dict] mapping exactly when they are
    the same box. *)
Theorem BoundingBox_to_dict_inj (a b : BoundingBox) :
  BoundingBox_to_dict a = BoundingBox_to_dict b ↔ a = b.
Proof.
  split; [ | by intros -> ].
  intros H.
  pose proof (BoundingBox_to_dict_lookup a) as (Ha1 & Ha2 & Ha3 & Ha4 & _).
  pose proof (BoundingBox_to_dict_lookup b) as (Hb1 & Hb2 & Hb3 & Hb4 & _).
  rewrite H in Ha1, Ha2, Ha3, Ha4.
  destruct a, b; simpl in *. congruence.
Qed.

(** X2: two poses have the same [to_dict] mapping exactly when they are
    the same pose; the mapping has the keys x, y and theta only. *)
Theorem RobotPose_to_dict_inj (p q : RobotPose) :
  (RobotPose_to_dict p = RobotPose_to_dict q ↔ p = q)
  ∧ dom (RobotPose_to_dict p) = {[ "x"; "y"; "theta" ]}.
Proof.
  split.
  - split; [ | by intros -> ].
    intros H. destruct p as [a b c], q as [a' b' c'].
    unfold RobotPose_to_dict in H. simpl in H.
    assert (Hx := f_equal (.!! "x") H).
    assert (Hy := f_equal (.!! "y") H).
    assert (Ht := f_equal (.!! "theta") H).
    simplify_map_eq. reflexivity.
  - unfold RobotPose_to_dict. rewrite !dom_insert_L, dom_singleton_L.
    set_solver.
Qed.

(** X3: two statuses have the same [to_dict] mapping exactly when they
    agree on name, readiness and message; the mapping always has the three
    keys, "error_message" included when there is no message. *)
Theorem AI_Service_Status_to_dict_inj (s t : AI_Service_Status) :
  (AI_Service_Status_to_dict s = AI_Service_Status_to_dict t ↔ s = t)
  ∧ dom (AI_Service_Status_to_dict s)
    = {[ "service_name"; "is_ready"; "error_message" ]}.
Proof.
  split.
  - split; [ | by intros -> ].
    intros H. destruct s as [n r m], t as [n' r' m'].
    unfold AI_Service_Status_to_dict in H. simpl in H.
    assert (Hn := f_equal (.!! "service_name") H).
    assert (Hr := f_equal (.!! "is_ready") H).
    assert (Hm := f_equal (.!! "error_message") H).
    simplify_map_eq.
    destruct m, m'; simpl in *; congruence.
  - unfold AI_Service_Status_to_dict. rewrite !dom_insert_L, dom_singleton_L.
    set_solver.
Qed.

(** X4: the text of a ready status never shows its error message: it is
    "Service Status: <name> is Ready" whatever the message. *)
Theorem status_str_ready_hides_message (name : string) (msg : option string) :
  AI_Service_Status_str (mkStatus name true msg)
  = [ Lit "Service Status: "; Fmt (PyStr name); Lit " is "; Lit "Ready" ].
Proof. reflexivity. Qed.

(** ** Arguments the methods reject, and arguments they ignore *)

(** X5: handed anything but an array, [detect_faces] and
    [recognize_object] raise AttributeError before printing, and leave the
    world as it was. *)
Theorem vision_rejects_non_arrays (image_frame object_list : pyval)
  (w : world) :
  is_ndarray image_frame = false →
  CV_API.detect_faces image_frame w = (inl AttributeError, w)
  ∧ CV_API.recognize_object image_frame object_list w
    = (inl AttributeError, w).
Proof.
  intros Hframe. destruct image_frame; try discriminate Hframe;
    split; reflexivity.
Qed.

(** A nested list of pixels in place of an array. *)
Lemma vision_rejects_non_arrays_witness :
  is_ndarray (PyList [PyList [PyInt 0]]) = false
  ∧ CV_API.detect_faces (PyList [PyList [PyInt 0]]) fresh
    = (inl AttributeError, fresh)
  ∧ CV_API.recognize_object (PyList [PyList [PyInt 0]]) PyNone fresh
    = (inl AttributeError, fresh).
Proof.
  split; [ reflexivity | ].
  apply (vision_rejects_non_arrays (PyList [PyList [PyInt 0]]) PyNone fresh).
  reflexivity.
Defined.

(** X6: on every byte string, of any length and content, and for every
    language argument, [recognize_speech] returns the dummy text and the
    line it prints reports the number of bytes received. *)
Theorem recognize_speech_reports_byte_count (bs : list byte)
  (lang_code : pyval) (w : world) :
  ASR_API.recognize_speech (PyBytes bs) lang_code w
  = (inr (Some "Dummy Recognized Text"),
     {| self_dict := self_dict w;
        stdout := (stdout w ++
          [[ Lit "[ASR_API]: Method 'recognize_speech' called with dummy audio data (";
             Fmt (PyInt (Z.of_nat (length bs))); Lit " bytes)." ]])%list |}).
Proof. reflexivity. Qed.

(** X7: on audio that has no length (None, a number, a pose, an array
    without dimension), [recognize_speech] raises TypeError before
    printing, and leaves the world as it was. *)
Theorem recognize_speech_rejects_unsized (audio_data lang_code : pyval)
  (w : world) :
  has_len audio_data = false →
  ASR_API.recognize_speech audio_data lang_code w = (inl TypeError, w).
Proof.
  intros Hlen. apply has_len_false in Hlen.
  unfold ASR_API.recognize_speech, mbind, M_bind, eval.
  rewrite Hlen. reflexivity.
Qed.

Lemma recognize_speech_rejects_unsized_witness :
  has_len PyNone = false
  ∧ ASR_API.recognize_speech PyNone default_lang_code fresh
    = (inl TypeError, fresh).
Proof.
  split; [ reflexivity | ].
  apply (recognize_speech_rejects_unsized PyNone default_lang_code fresh).
  reflexivity.
Defined.

(** X8: the speech methods never look at the language nor at the voice:
    changing them changes neither what is returned nor what is printed. *)
Theorem speech_ignores_language_and_voice :
  (∀ audio_data lang1 lang2 w,
      ASR_API.recognize_speech audio_data lang1 w
      = ASR_API.recognize_speech audio_data lang2 w)
  ∧ (∀ text lang1 voice1 lang2 voice2 w,
        TTS_API.synthesize_speech text lang1 voice1 w
        = TTS_API.synthesize_speech text lang2 voice2 w).
Proof. split; reflexivity. Qed.

(** X9: [set_goal_pose] never looks at the orientation: two targets with
    the same x and y give the same result and the same printed line. *)
Theorem set_goal_pose_ignores_theta (a b theta1 theta2 : float) (w : world) :
  Navigation_API.set_goal_pose (PyRobotPose (mkRobotPose a b theta1)) w
  = Navigation_API.set_goal_pose (PyRobotPose (mkRobotPose a b theta2)) w.
Proof. reflexivity. Qed.

(** X10: handed anything but a [RobotPose], [set_goal_pose] raises
    AttributeError before printing and leaves the world as it was; it does
    not return false. *)
Theorem set_goal_pose_rejects_non_poses (target_pose : pyval) (w : world) :
  is_pose target_pose = false →
  Navigation_API.set_goal_pose target_pose w = (inl AttributeError, w)
  ∧ outcome (Navigation_API.set_goal_pose target_pose) w ≠ inr false.
Proof.
  intros Htarget. destruct target_pose; try discriminate Htarget;
    split; first [ reflexivity | unfold outcome; simpl; discriminate ].
Qed.

(** The serialised pose in place of the pose. *)
Lemma set_goal_pose_rejects_non_poses_witness :
  is_pose (PyDict (RobotPose_to_dict dummy_target_pose)) = false
  ∧ Navigation_API.set_goal_pose
      (PyDict (RobotPose_to_dict dummy_target_pose)) fresh
    = (inl AttributeError, fresh)
  ∧ outcome (Navigation_API.set_goal_pose
               (PyDict (RobotPose_to_dict dummy_target_pose))) fresh
    ≠ inr false.
Proof.
  split; [ reflexivity | ].
  apply (set_goal_pose_rejects_non_poses
           (PyDict (RobotPose_to_dict dummy_target_pose)) fresh).
  reflexivity.
Defined.

(** X11: a goal never moves the robot: after [set_goal_pose] on any
    argument, accepted or refused, and after a cancel, [get_current_pose]
    still returns the pose (0.0, 0.0, 0.0). *)
Theorem get_current_pose_fixed (target_pose : pyval) (w : world) :
  let w1 := after (Navigation_API.set_goal_pose target_pose) w in
  let w2 := after Navigation_API.cancel_navigation w1 in
  outcome Navigation_API.get_current_pose w
  = inr (mkRobotPose 0%float 0%float 0%float)
  ∧ outcome Navigation_API.get_current_pose w1
    = outcome Navigation_API.get_current_pose w
  ∧ outcome Navigation_API.get_current_pose w2
    = outcome Navigation_API.get_current_pose w.
Proof. repeat split. Qed.

(** ** Any sequence of calls *)

(** X12: whatever calls a caller makes, in whatever order and with
    whatever arguments, completed or stopped by an exception, the four
    service instances end with the attributes they started with. *)
Theorem calls_leave_instances_unchanged (cs : list api_call) (p : process)
  (s : service) :
  instance_dict s (perform_all cs p).2 = instance_dict s p.
Proof.
  destruct (perform_all_uniform cs) as (r & ls & Hrun & _).
  rewrite Hrun. destruct s; reflexivity.
Qed.

(** X13: the answers of a sequence of calls do not depend on the process
    it starts from, hence not on the calls made before it: the same
    sequence returns the same values, or raises the same exception. *)
Theorem answers_independent_of_history (cs before : list api_call)
  (p p' : process) :
  (perform_all cs p).1 = (perform_all cs p').1
  ∧ (perform_all cs (perform_all before p).2).1 = (perform_all cs p).1.
Proof.
  destruct (perform_all_uniform cs) as (r & ls & Hrun & _).
  rewrite !Hrun. split; reflexivity.
Qed.

(** X14: the console only grows, by one line per answered call: a sequence
    that completes returns one value per call and has printed one line per
    call; a sequence stopped by an exception has printed fewer lines than
    it has calls. *)
Theorem one_line_per_answered_call (cs : list api_call) (p : process) :
  ∃ ls,
    console (perform_all cs p).2 = (console p ++ ls)%list
    ∧ match (perform_all cs p).1 with
      | inr vs => length vs = length cs ∧ length ls = length cs
      | inl _ => length ls < length cs
      end.
Proof.
  destruct (perform_all_uniform cs) as (r & ls & Hrun & Hshape).
  exists ls. rewrite Hrun. simpl. split; [ reflexivity | ].
  destruct (forallb accepted cs).
  - destruct Hshape as [(vs & -> & Hvs) Hls]. by split.
  - destruct Hshape as [[e ->] Hls]. exact Hls.
Qed.




